(* Shallow embedding of custom_components/owie/sensor.py (Owie battery
   monitor integration): the uptime/missed-packet tracker shared by the
   connectivity and charging sensors, the battery-level state holder, the
   charge-speed classifier, the payload sanitizer and OwieData.update. *)

From Stdlib Require Import ZArith QArith Lqa String Ascii List.
From stdpp Require Import base gmap strings list.

Open Scope Z_scope.

(* ===================================================================== *)
(* Uptime tracker (OwieConnectivitySensor.is_on, OwieChargingSensor.is_on) *)
(* ===================================================================== *)

(** The per-sensor fields [_old_uptime] and [_missed_packets]; the
    configured [_max_missed_packets] is passed separately. *)
Record tracker := mkTracker {
  old_uptime : string;
  missed_packets : Z
}.

(** [__init__]: [_old_uptime = 'Offline'], [_missed_packets = 0]. *)
Definition tracker_init : tracker := mkTracker "Offline" 0.

Definition str_eqb (a b : string) : bool := bool_decide (a = b).

(** The uptime comparison of [OwieConnectivitySensor.is_on]; the argument
    [new_uptime] is [str(self.data.info['UPTIME'])]. Returns the new
    fields and the reported connectivity. *)
Definition connectivity_is_on (mpm : Z) (t : tracker) (new_uptime : string)
    : tracker * bool :=
  if negb (str_eqb new_uptime "Offline") && str_eqb new_uptime (old_uptime t) then
    if missed_packets t <? mpm then
      (mkTracker (old_uptime t) (missed_packets t + 1), true)
    else (t, false)
  else if negb (str_eqb new_uptime "Offline")
          && negb (str_eqb new_uptime (old_uptime t)) then
    (mkTracker new_uptime 0, true)
  else (mkTracker (old_uptime t) 0, false).

(** Feeding successive readings to [is_on]: the reported values. *)
Fixpoint run_connectivity (mpm : Z) (t : tracker) (readings : list string)
    : tracker * list bool :=
  match readings with
  | [] => (t, [])
  | u :: rest =>
      let '(t1, b) := connectivity_is_on mpm t u in
      let '(t2, bs) := run_connectivity mpm t1 rest in
      (t2, b :: bs)
  end.

(* ===================================================================== *)
(* Battery-level state holder (OwieBatterySensor)                         *)
(* ===================================================================== *)

(** [_state] (initially -1) and [_last_state] (initially None). *)
Record battery := mkBattery {
  bstate : Z;
  last_state : option Z
}.

Definition battery_init : battery := mkBattery (-1) None.

(** [async_added_to_hass]: [restored] is [int(last_state.state)] when the
    host has a last state, None otherwise. *)
Definition battery_attach (b : battery) (restored : option Z) : battery :=
  match restored with
  | Some v => mkBattery (bstate b) (Some v)
  | None => b
  end.

(** The [elif]/[else] arms of the [state] property. *)
Definition battery_state_rest (b : battery) (override_value : Z) : battery * Z :=
  if negb (bstate b =? -1) && (override_value =? -1) then
    (b, bstate b)
  else if negb (override_value =? -1) then
    (mkBattery override_value (last_state b), override_value)
  else (mkBattery 0 (last_state b), 0).

(** The [state] property; [override_value] is
    [int(self.data.info['OVERRIDDEN_SOC'])]. Returns the new fields and
    the returned value. The first arm is
    [if self._last_state is not None and self._state == -1]. *)
Definition battery_state (b : battery) (override_value : Z) : battery * Z :=
  match last_state b with
  | Some l =>
      if bstate b =? -1 then (mkBattery l None, l)
      else battery_state_rest b override_value
  | None => battery_state_rest b override_value
  end.

Fixpoint run_battery (b : battery) (reads : list Z) : battery * list Z :=
  match reads with
  | [] => (b, [])
  | o :: rest =>
      let '(b1, v) := battery_state b o in
      let '(b2, vs) := run_battery b1 rest in
      (b2, v :: vs)
  end.

(* ===================================================================== *)
(* Charge-speed classifier and charging sensor                            *)
(* ===================================================================== *)

(** Python floats are modelled by their (rational) value; every finite
    double is a rational number. *)
Definition qge (a b : Q) : bool := Qle_bool b a.
Definition qgt (a b : Q) : bool := negb (Qle_bool a b).

(** [charge_speed(amps)]. *)
Definition charge_speed (amps : Q) : string :=
  if qge amps 0 then "Not Charging"
  else if qgt amps (-1) then "Balance Charging"
  else if qgt amps (-2) then "Pint Charger"
  else if qgt amps (-4) then "XR|Pint Ultracharger"
  else if qgt amps (-6) then "XR Hypercharger"
  else "Unknown Charger".

(** [charge_speed_icon(amps)]. *)
Definition charge_speed_icon (amps : Q) : string :=
  if qge amps 0 then "mdi:power-plug-off-outline"
  else if qgt amps (-1) then "mdi:scale-balance"
  else if qgt amps (-2) then "mdi:speedometer-slow"
  else if qgt amps (-4) then "mdi:speedometer-medium"
  else if qgt amps (-6) then "mdi:speedometer"
  else "mdi:flash-alert-outline".

(** Fields of [OwieChargingSensor]: the uptime tracker fields,
    [current_current] and [_connected]. *)
Record charging := mkCharging {
  ch_tracker : tracker;
  current_current : Q;
  connected : bool
}.

(** [__init__]: [current_current = 1], [_connected = False]. *)
Definition charging_init : charging := mkCharging tracker_init 1 false.

(** [OwieChargingSensor.is_on]. Its uptime comparison is the same code as
    [OwieConnectivitySensor.is_on], with [self._connected = True/False]
    in place of [return True/False]; it is reused here.
    [current_amps] is [float(self.data.info['CURRENT_AMPS'])], None when
    that raises; it is only evaluated on the connected arm. Returns the
    fields after the read and its result, None when the read raises: the
    tracker fields and [_connected = True] are already written then, and
    [current_current] keeps its value. *)
Definition charging_is_on (mpm : Z) (st : charging) (new_uptime : string)
    (current_amps : option Q) : charging * option bool :=
  let '(t, c) := connectivity_is_on mpm (ch_tracker st) new_uptime in
  if c then
    match current_amps with
    | Some a => (mkCharging t a true, Some (if qge a 0 then false else true))
    | None => (mkCharging t (current_current st) true, None)
    end
  else (mkCharging t 0 false, Some false).

(** [OwieChargingSensor.extra_state_attributes]: the charge speed of
    [current_current] and [float(self.data.info['CURRENT_AMPS'])]. *)
Definition charging_attributes (st : charging) (current_amps : option Q)
    : option (string * Q) :=
  match current_amps with
  | Some a => Some (charge_speed (current_current st), a)
  | None => None
  end.

(** Feeding successive reads to the charging sensor: each read is the
    uptime string and [float(self.data.info['CURRENT_AMPS'])]. A read that
    raises gives None and the next read starts from the fields as that
    read left them. *)
Fixpoint run_charging (mpm : Z) (st : charging) (reads : list (string * option Q))
    : charging * list (option bool) :=
  match reads with
  | [] => (st, [])
  | (u, a) :: rest =>
      let '(st1, r) := charging_is_on mpm st u a in
      let '(st2, rs) := run_charging mpm st1 rest in
      (st2, r :: rs)
  end.

(** [charge_icon(soc)], used by [OwieBatterySensor.icon] on [self._state]. *)
Definition charge_icon (soc : Z) : string :=
  if soc >=? 95 then "mdi:battery"
  else if soc >=? 90 then "mdi:battery-90"
  else if soc >=? 80 then "mdi:battery-80"
  else if soc >=? 70 then "mdi:battery-70"
  else if soc >=? 60 then "mdi:battery-60"
  else if soc >=? 50 then "mdi:battery-50"
  else if soc >=? 40 then "mdi:battery-40"
  else if soc >=? 30 then "mdi:battery-30"
  else if soc >=? 20 then "mdi:battery-20"
  else if soc >=? 10 then "mdi:battery-10"
  else if soc >=? 0 then "mdi:battery-outline"
  else "mdi:battery-unknown".

(* ===================================================================== *)
(* Payload sanitizer (sanitize_response)                                  *)
(* ===================================================================== *)

(** Python's [str.strip(chars)]: drop every leading and trailing character
    that occurs in [chars]. *)
Definition in_chars (chars : string) (c : ascii) : bool :=
  existsb (fun d => bool_decide (c = d)) (list_ascii_of_string chars).

Fixpoint lstrip_list (chars : string) (l : list ascii) : list ascii :=
  match l with
  | [] => []
  | c :: rest => if in_chars chars c then lstrip_list chars rest else l
  end.

Definition py_strip (chars : string) (s : string) : string :=
  string_of_list_ascii
    (rev (lstrip_list chars (rev (lstrip_list chars (list_ascii_of_string s))))).

(** [str.strip()] with no argument removes the characters for which
    [str.isspace()] holds. Cell texts are strings of code points
    0..255 (one [ascii] per Latin-1 code point); among these, [isspace]
    holds exactly for 9..13, 28..31, 32, 133 (NEL) and 160 (NO-BREAK
    SPACE, what [&nbsp;] parses to). *)
Definition whitespace : string :=
  string_of_list_ascii (map ascii_of_nat
    [9; 10; 11; 12; 13; 28; 29; 30; 31; 32; 133; 160]%nat).

(** [.strip('v').strip(' Amps').strip('%').strip('%').strip(' mAh').strip(' mAh')] *)
Definition strip_units (s : string) : string :=
  py_strip " mAh" (py_strip " mAh" (py_strip "%" (py_strip "%"
    (py_strip " Amps" (py_strip "v" s))))).

(** JSON values of the payload: strings, numbers, [None], and the
    key/value mappings that the sanitizer puts in place of the tables. *)
Inductive jvalue :=
| JStr (s : string)
| JNum (z : Z)
| JNull
| JMap (m : gmap string string).

(** Python truthiness, used by [if cell_voltage_table:]. *)
Definition py_truthy (v : jvalue) : bool :=
  match v with
  | JStr s => negb (str_eqb s "")
  | JNum z => negb (z =? 0)
  | JNull => false
  | JMap m => negb (bool_decide (m = ∅))
  end.

Definition san_properties : list string :=
  ["TOTAL_VOLTAGE"; "CURRENT_AMPS"; "BMS_SOC"; "OVERRIDDEN_SOC";
   "USED_CHARGE_MAH"; "REGENERATED_CHARGE_MAH"].

(** [owie_json[prop] = owie_json[prop].strip(...)...]: None when the key
    is missing (KeyError) or the value is not a string (AttributeError). *)
Definition sanitize_prop (p : gmap string jvalue) (prop : string)
    : option (gmap string jvalue) :=
  match p !! prop with
  | Some (JStr s) => Some (<[prop := JStr (strip_units s)]> p)
  | _ => None
  end.

Definition sanitize_numeric (p : gmap string jvalue) : option (gmap string jvalue) :=
  foldl (fun acc prop => match acc with
                         | Some q => sanitize_prop q prop
                         | None => None
                         end) (Some p) san_properties.

(** [str(i)] for the natural numbers of [range(1, 16)]. *)
Definition digit_ascii (d : nat) : ascii := ascii_of_nat (48 + d).

Fixpoint nat_to_dec_fuel (fuel n : nat) (acc : string) : string :=
  match fuel with
  | O => acc
  | S f =>
      let acc' := String (digit_ascii (Nat.modulo n 10)) acc in
      if Nat.ltb n 10 then acc' else nat_to_dec_fuel f (Nat.div n 10) acc'
  end.

Definition nat_to_dec (n : nat) : string := nat_to_dec_fuel (S n) n EmptyString.

(** [[f'Cell {i}' for i in range(1, 16)]] and [[f'Temp {i}' for i in range(1, 6)]]. *)
Definition cell_key (i : nat) : string := String.append "Cell " (nat_to_dec i).
Definition cell_voltage_keys : list string := cell_key <$> seq 1 15.
Definition temp_key (i : nat) : string := String.append "Temp " (nat_to_dec i).
Definition temperature_keys : list string := temp_key <$> seq 1 5.

(** [dict(zip(keys, values))]: insert the pairs left to right. *)
Definition dict_zip (keys values : list string) : gmap string string :=
  foldl (fun m kv => <[fst kv := snd kv]> m) ∅ (zip keys values).

(** The row loop: the first row whose stripped non-empty cell texts form a
    non-empty list gives the values; no such row gives []. *)
Fixpoint first_row_values (rows : list (list string)) : list string :=
  match rows with
  | [] => []
  | cols :: rest =>
      let row := filter (fun t => negb (str_eqb t "")) (map (py_strip whitespace) cols) in
      match row with
      | [] => first_row_values rest
      | _ => row
      end
  end.

Section Tables.

(** The HTML parser: for markup [s], [soup_rows s] lists, for every [tr]
    of [BeautifulSoup(s, 'html.parser')], the [.text] of its [td] cells
    (as code points 0..255, see [whitespace]). *)
Variable soup_rows : string -> list (list string).

(** One table block of [sanitize_response]: nothing happens when the
    field is absent or falsy; markup is replaced by its mapping. A truthy
    value that is not a string is handed to [BeautifulSoup], which raises
    on it (None). *)
Definition sanitize_table (key : string) (keys : list string)
    (p : gmap string jvalue) : option (gmap string jvalue) :=
  match p !! key with
  | None => Some p
  | Some v =>
      if py_truthy v then
        match v with
        | JStr s => Some (<[key := JMap (dict_zip keys (first_row_values (soup_rows s)))]> p)
        | _ => None
        end
      else Some p
  end.

(** [sanitize_response(owie_json)]; None stands for a raised exception. *)
Definition sanitize_response (p : gmap string jvalue) : option (gmap string jvalue) :=
  match sanitize_numeric p with
  | None => None
  | Some p1 =>
      match sanitize_table "CELL_VOLTAGE_TABLE" cell_voltage_keys p1 with
      | None => None
      | Some p2 => sanitize_table "TEMPERATURE_TABLE" temperature_keys p2
      end
  end.

(** A fetch as [requests.get(..., timeout=1)] sees it: an [OSError]
    (connection failure, timeout) or a response with a status code and a
    JSON object body. *)
Inductive fetch_outcome :=
| Unreachable
| Reply (status_code : Z) (body : gmap string jvalue).

(** Outcome of [OwieData.update]: the new [self.info], or an exception
    that leaves the method. *)
Inductive update_result :=
| Updated (info : gmap string jvalue)
| Raised.

(** [OwieData.update]: [requests.codes.bad] is 400. *)
Definition update (info : gmap string jvalue) (o : fetch_outcome) : update_result :=
  match o with
  | Unreachable => Updated info
  | Reply code body =>
      if code =? 400 then Updated info
      else match sanitize_response body with
           | Some p => Updated p
           | None => Raised
           end
  end.

End Tables.

(* ===================================================================== *)
(* Tracker: proofs                                                        *)
(* ===================================================================== *)

Module Tracker.

(** The readings of the spec's example, and the same with a sixth one. *)
Definition example_readings : list string := ["Offline"; "10"; "10"; "10"; "10"].

(** Values of [_missed_packets] after each prefix of the readings. *)
Definition missed_after (mpm : Z) (readings : list string) (ks : list nat) : list Z :=
  map (fun k => missed_packets (fst (run_connectivity mpm tracker_init (firstn k readings)))) ks.

Lemma step_missed_bounds (mpm : Z) (t : tracker) (u : string) :
  0 <= mpm -> 0 <= missed_packets t <= mpm ->
  0 <= missed_packets (fst (connectivity_is_on mpm t u)) <= mpm.
Proof.
  intros Hm Ht. unfold connectivity_is_on.
  destruct (negb (str_eqb u "Offline") && str_eqb u (old_uptime t)).
  - destruct (missed_packets t <? mpm) eqn:E; simpl; [apply Z.ltb_lt in E|]; lia.
  - destruct (negb (str_eqb u "Offline") && negb (str_eqb u (old_uptime t))); simpl; lia.
Qed.

Lemma run_missed_bounds (mpm : Z) (readings : list string) (t : tracker) :
  0 <= mpm -> 0 <= missed_packets t <= mpm ->
  0 <= missed_packets (fst (run_connectivity mpm t readings)) <= mpm.
Proof.
  revert t. induction readings as [|u rest IH]; intros t Hm Ht; simpl; [exact Ht|].
  destruct (connectivity_is_on mpm t u) as [t1 b] eqn:E1.
  destruct (run_connectivity mpm t1 rest) as [t2 bs] eqn:E2. simpl.
  change t2 with (fst (t2, bs)). rewrite <- E2. apply IH; [exact Hm|].
  change t1 with (fst (t1, b)). rewrite <- E1. by apply step_missed_bounds.
Qed.

Lemma str_eqb_true (a b : string) : str_eqb a b = true <-> a = b.
Proof. unfold str_eqb. apply bool_decide_eq_true. Qed.

Lemma str_eqb_false (a b : string) : str_eqb a b = false <-> a <> b.
Proof. unfold str_eqb. apply bool_decide_eq_false. Qed.

(** C1 (counterexample): with max_missed = 3 the readings
    ["Offline"; "10"; "10"; "10"; "10"] are not reported as
    [false; true; true; true; false]. *)
Lemma C1_counterexample :
  snd (run_connectivity 3 tracker_init example_readings)
  <> [false; true; true; true; false].
Proof. vm_compute. congruence. Qed.

(** C1 (amended): with max_missed = 3, the readings
    ["Offline"; "10"; "10"; "10"; "10"] are reported as
    [false; true; true; true; true]: reading 2 takes the connected path,
    readings 3 to 5 are stalls that raise missed_count to 1, 2 and 3 and
    are all reported connected (the bound is tested before the increment);
    a sixth identical reading is the first one reported false, and
    missed_count stays 3. *)
Theorem C1_stall_sequence :
  run_connectivity 3 tracker_init example_readings
    = (mkTracker "10" 3, [false; true; true; true; true])
  /\ missed_after 3 example_readings [1; 2; 3; 4; 5]%nat = [0; 0; 1; 2; 3]
  /\ run_connectivity 3 tracker_init (example_readings ++ ["10"])
    = (mkTracker "10" 3, [false; true; true; true; true; false]).
Proof. split; [|split]; vm_compute; reflexivity. Qed.

(** C6: for max_missed >= 0, every tracker state reached from the initial
    state by any readings has 0 <= missed_count <= max_missed; and any read
    whose uptime differs from the stored previous uptime, or equals
    "Offline", sets missed_count to 0. *)
Theorem C6_missed_count_invariant (mpm : Z) (readings : list string) :
  0 <= mpm ->
  0 <= missed_packets (fst (run_connectivity mpm tracker_init readings)) <= mpm
  /\ (forall (t : tracker) (u : string),
        u <> old_uptime t \/ u = "Offline" ->
        missed_packets (fst (connectivity_is_on mpm t u)) = 0).
Proof.
  intros Hm. split.
  - apply run_missed_bounds; [exact Hm | simpl; lia].
  - intros t u Hu. unfold connectivity_is_on.
    destruct Hu as [Hne | ->].
    + assert (E : str_eqb u (old_uptime t) = false) by (by apply str_eqb_false).
      rewrite E, andb_false_r. simpl.
      by destruct (negb (str_eqb u "Offline")).
    + reflexivity.
Qed.

Lemma C6_witness :
  0 <= 3 /\
  (0 <= missed_packets (fst (run_connectivity 3 tracker_init example_readings)) <= 3
   /\ (forall (t : tracker) (u : string),
         u <> old_uptime t \/ u = "Offline" ->
         missed_packets (fst (connectivity_is_on 3 t u)) = 0)).
Proof. split; [lia | apply (C6_missed_count_invariant 3 example_readings); lia]. Defined.

(** C10 (counterexample): with max_missed = 0, a tracker whose stored
    uptime is "10" reports ["Offline"; "10"] as [false; false]. *)
Lemma C10_counterexample :
  snd (run_connectivity 0 (mkTracker "10" 0) ["Offline"; "10"]) <> [false; true].
Proof. vm_compute. congruence. Qed.

(** C10 (amended): an "Offline" reading does not clear the stored previous
    uptime. For max_missed >= 1 and a tracker whose stored uptime is a
    non-"Offline" value u, the readings ["Offline"; u] are reported as
    [false; true], the second one on the stall path: missed_count ends at
    1 (not reset) and the stored uptime is still u. *)
Theorem C10_offline_keeps_uptime (mpm : Z) (t : tracker) (u : string) :
  1 <= mpm -> u <> "Offline" -> old_uptime t = u ->
  run_connectivity mpm t ["Offline"; u] = (mkTracker u 1, [false; true]).
Proof.
  intros Hm Hu Ht. destruct t as [old m]. simpl in Ht. subst old.
  unfold run_connectivity, connectivity_is_on. simpl.
  assert (E : str_eqb u "Offline" = false) by (by apply str_eqb_false).
  assert (E' : str_eqb u u = true) by (by apply str_eqb_true).
  rewrite E, E'. simpl.
  assert (L : (0 <? mpm) = true) by (apply Z.ltb_lt; lia).
  rewrite L. reflexivity.
Qed.

Lemma C10_witness :
  (1 <= 3 /\ "10" <> "Offline" /\ old_uptime (mkTracker "10" 2) = "10")
  /\ run_connectivity 3 (mkTracker "10" 2) ["Offline"; "10"] = (mkTracker "10" 1, [false; true]).
Proof.
  split; [split; [lia | split; [discriminate | reflexivity]] |].
  apply (C10_offline_keeps_uptime 3 (mkTracker "10" 2) "10"); [lia | discriminate | reflexivity].
Defined.

End Tracker.

(* ===================================================================== *)
(* Battery-level state holder: proofs                                     *)
(* ===================================================================== *)

Module Battery.

Lemma run_battery_app (b : battery) (r1 r2 : list Z) :
  run_battery b (r1 ++ r2)
  = let '(b1, vs1) := run_battery b r1 in
    let '(b2, vs2) := run_battery b1 r2 in (b2, vs1 ++ vs2).
Proof.
  revert b. induction r1 as [|o rest IH]; intros b; simpl.
  - by destruct (run_battery b r2).
  - destruct (battery_state b o) as [b1 v]. rewrite IH.
    destruct (run_battery b1 rest) as [b2 vs].
    by destruct (run_battery b2 r2).
Qed.

Lemma run_battery_offline (n : nat) :
  run_battery (mkBattery 67 None) (repeat (-1) n) = (mkBattery 67 None, repeat 67 n).
Proof.
  induction n as [|n IH]; [reflexivity|].
  simpl. rewrite IH. reflexivity.
Qed.

(** C3: attached with restored value 42 and no live value yet, the first
    read with the device at the -1 sentinel returns 42 and clears the
    restored value; the next read with live value 67 returns 67; every
    later read at the sentinel returns 67, and the restored value is gone
    (last_state = None) so it is never consulted again. *)
Theorem C3_restore_then_live (n : nat) :
  battery_state (battery_attach battery_init (Some 42)) (-1) = (mkBattery 42 None, 42)
  /\ run_battery (battery_attach battery_init (Some 42)) ([-1; 67] ++ repeat (-1) n)
     = (mkBattery 67 None, [42; 67] ++ repeat 67 n).
Proof.
  split; [reflexivity|].
  rewrite run_battery_app. simpl. rewrite run_battery_offline. reflexivity.
Qed.

(** C4 (counterexample): a live value other than the sentinel is adopted
    as it is; after the live value 10 has been observed, a read with the
    device at -7 returns -7. *)
Lemma C4_counterexample :
  snd (run_battery battery_init [10; -7]) = [10; -7].
Proof. reflexivity. Qed.

(** Values the holder may carry when every input is the sentinel or a
    percentage: the state is -1 or non-negative, a pending restored value
    is non-negative. *)
Definition battery_ok (b : battery) : Prop :=
  (bstate b = -1 \/ 0 <= bstate b)
  /\ (forall l, last_state b = Some l -> 0 <= l).

Lemma battery_state_ok (b : battery) (o : Z) :
  battery_ok b -> (o = -1 \/ 0 <= o) ->
  battery_ok (fst (battery_state b o)) /\ 0 <= snd (battery_state b o).
Proof.
  intros [Hs Hl] Ho.
  assert (Rest : battery_ok (fst (battery_state_rest b o))
                 /\ 0 <= snd (battery_state_rest b o)).
  { unfold battery_state_rest.
    destruct (bstate b =? -1) eqn:E1; destruct (o =? -1) eqn:E2; simpl;
      rewrite ?Z.eqb_eq, ?Z.eqb_neq in E1, E2;
      unfold battery_ok; simpl; repeat split; try lia; try exact Hl. }
  unfold battery_state. destruct (last_state b) as [l|] eqn:El; [|exact Rest].
  destruct (bstate b =? -1); [|exact Rest].
  simpl. unfold battery_ok. simpl.
  pose proof (Hl l eq_refl). repeat split; [lia | discriminate | lia].
Qed.

Lemma run_battery_ok (b : battery) (reads : list Z) :
  battery_ok b -> Forall (fun o => o = -1 \/ 0 <= o) reads ->
  Forall (fun v => 0 <= v) (snd (run_battery b reads)).
Proof.
  revert b. induction reads as [|o rest IH]; intros b Hb Hr; simpl; [constructor|].
  inversion Hr as [|? ? Ho Hrest]; subst.
  pose proof (battery_state_ok b o Hb Ho) as [Hb1 Hv].
  destruct (battery_state b o) as [b1 v]. simpl in *.
  specialize (IH b1 Hb1 Hrest).
  destruct (run_battery b1 rest) as [b2 vs]. simpl in *.
  by constructor.
Qed.

(** C4 (amended): when every live reading is the -1 sentinel or a
    non-negative value and the restored value, if any, is non-negative,
    every read of the holder attached to a fresh entity returns a value
    >= 0; in particular no read after the first successful read or
    restore returns a negative value. *)
Theorem C4_never_negative (restored : option Z) (reads : list Z) :
  (forall v, restored = Some v -> 0 <= v) ->
  Forall (fun o => o = -1 \/ 0 <= o) reads ->
  Forall (fun v => 0 <= v) (snd (run_battery (battery_attach battery_init restored) reads)).
Proof.
  intros Hr Hreads. apply run_battery_ok; [|exact Hreads].
  destruct restored as [r|]; unfold battery_ok; simpl; split.
  - left. reflexivity.
  - intros l [= <-]. by apply Hr.
  - left. reflexivity.
  - intros l Hl. discriminate Hl.
Qed.

Lemma C4_witness :
  Forall (fun v => 0 <= v)
    (snd (run_battery (battery_attach battery_init (Some 42)) [-1; 67; -1; -1])).
Proof.
  apply (C4_never_negative (Some 42) [-1; 67; -1; -1]).
  - intros v [= <-]. lia.
  - repeat constructor; lia.
Defined.

End Battery.

(* ===================================================================== *)
(* Charge speed and charging sensor: proofs                               *)
(* ===================================================================== *)

Module Charging.

Lemma qge_spec (a b : Q) : qge a b = true <-> (b <= a)%Q.
Proof. unfold qge. apply Qle_bool_iff. Qed.

Lemma qgt_spec (a b : Q) : qgt a b = true <-> (b < a)%Q.
Proof.
  unfold qgt. split.
  - intros H. apply Qnot_le_lt. intros Hle.
    apply Qle_bool_iff in Hle. rewrite Hle in H. discriminate.
  - intros H. destruct (Qle_bool a b) eqn:E; [|reflexivity].
    apply Qle_bool_iff in E. exfalso. apply (Qlt_not_le _ _ H E).
Qed.

(** Turn the boolean comparisons of the ladder into hypotheses on [Q]. *)
Ltac ladder_cases :=
  repeat match goal with
  | |- context [qge ?a ?b] =>
      let E := fresh "E" in
      destruct (qge a b) eqn:E;
      [apply qge_spec in E | assert (~ (b <= a)%Q) by (rewrite <- qge_spec, E; discriminate)]
  | |- context [qgt ?a ?b] =>
      let E := fresh "E" in
      destruct (qgt a b) eqn:E;
      [apply qgt_spec in E | assert (~ (b < a)%Q) by (rewrite <- qgt_spec, E; discriminate)]
  end.

(** C8: charge_speed(amps) is "Not Charging" iff amps >= 0 and
    "Unknown Charger" iff amps <= -6; the bands between are half-open
    intervals whose boundary points -1, -2, -4, -6 belong to the
    more-negative band. *)
Theorem C8_charge_speed_bands (amps : Q) :
  (charge_speed amps = "Not Charging" <-> (0 <= amps)%Q)
  /\ (charge_speed amps = "Balance Charging" <-> (-1 < amps /\ amps < 0)%Q)
  /\ (charge_speed amps = "Pint Charger" <-> (-2 < amps /\ amps <= -1)%Q)
  /\ (charge_speed amps = "XR|Pint Ultracharger" <-> (-4 < amps /\ amps <= -2)%Q)
  /\ (charge_speed amps = "XR Hypercharger" <-> (-6 < amps /\ amps <= -4)%Q)
  /\ (charge_speed amps = "Unknown Charger" <-> (amps <= -6)%Q)
  /\ charge_speed (-1) = "Pint Charger"
  /\ charge_speed (-2) = "XR|Pint Ultracharger"
  /\ charge_speed (-4) = "XR Hypercharger"
  /\ charge_speed (-6) = "Unknown Charger".
Proof.
  split; [|split; [|split; [|split; [|split; [|split]]]]];
    try (unfold charge_speed; ladder_cases; split; intros;
         try discriminate; try reflexivity; try lra; exfalso; lra).
  repeat split; reflexivity.
Qed.

(** C7: on every charging-sensor read whose tracker decides "not
    connected", whatever the cached amperage, current_current is forced
    to 0, the sensor reports False (not charging; the read does not
    raise) and the charge-speed
    attribute computed from current_current is "Not Charging" (with the
    matching icon). *)
Theorem C7_disconnected_not_charging (mpm : Z) (st st' : charging) (u : string)
    (amps : option Q) (r : option bool) :
  charging_is_on mpm st u amps = (st', r) ->
  connected st' = false ->
  r = Some false /\ current_current st' = 0%Q
  /\ charge_speed (current_current st') = "Not Charging"
  /\ charge_speed_icon (current_current st') = "mdi:power-plug-off-outline".
Proof.
  unfold charging_is_on. destruct (connectivity_is_on mpm (ch_tracker st) u) as [t c].
  destruct c.
  - destruct amps as [a|]; intros [= <- _]; simpl; discriminate.
  - intros [= <- <-] _. simpl. repeat split; reflexivity.
Qed.

Lemma C7_witness :
  exists st' r,
    charging_is_on 3 charging_init "Offline" (Some (-3)%Q) = (st', r)
    /\ connected st' = false
    /\ (r = Some false /\ current_current st' = 0%Q
        /\ charge_speed (current_current st') = "Not Charging"
        /\ charge_speed_icon (current_current st') = "mdi:power-plug-off-outline").
Proof.
  exists (mkCharging tracker_init 0 false), (Some false).
  assert (E : charging_is_on 3 charging_init "Offline" (Some (-3)%Q)
              = (mkCharging tracker_init 0 false, Some false)) by reflexivity.
  split; [exact E | split; [reflexivity |]].
  exact (C7_disconnected_not_charging 3 charging_init _ "Offline" (Some (-3)%Q) (Some false)
           E eq_refl).
Defined.

End Charging.

(* ===================================================================== *)
(* Sanitizer and update: proofs                                           *)
(* ===================================================================== *)

Module Sanitizer.

(** A parser stub for payloads without tables. *)
Definition no_soup : string -> list (list string) := fun _ => [].

(** [OwieData.__init__]: the default [self.info]. *)
Definition default_info : gmap string jvalue :=
  <[ "TOTAL_VOLTAGE" := JStr "0" ]> (<[ "CURRENT_AMPS" := JStr "0" ]>
  (<[ "BMS_SOC" := JStr "0" ]> (<[ "OVERRIDDEN_SOC" := JStr "-1" ]>
  (<[ "USED_CHARGE_MAH" := JStr "0" ]> (<[ "REGENERATED_CHARGE_MAH" := JStr "0" ]>
  (<[ "UPTIME" := JStr "Offline" ]>
  (<[ "CELL_VOLTAGE_TABLE" := JMap (list_to_map ((fun k => (k, "0")) <$> cell_voltage_keys)) ]>
  {[ "TEMPERATURE_TABLE" := JMap (list_to_map ((fun k => (k, "0")) <$> temperature_keys)) ]}))))))).

(** A device payload without tables, with TOTAL_VOLTAGE given as [v]. *)
Definition device_body (v : string) : gmap string jvalue :=
  <[ "TOTAL_VOLTAGE" := JStr v ]> (<[ "CURRENT_AMPS" := JStr "-3.2 Amps" ]>
  (<[ "BMS_SOC" := JStr "87%" ]> (<[ "OVERRIDDEN_SOC" := JStr "85%" ]>
  (<[ "USED_CHARGE_MAH" := JStr "1234 mAh" ]>
  {[ "REGENERATED_CHARGE_MAH" := JStr "56 mAh" ]} ∪ {[ "UPTIME" := JStr "3600" ]})))).

(** C2 (code bug): a connection failure or timeout ([OSError]) and a 400
    reply leave [self.info] as it was, but any other non-success status is
    treated as a payload: a 500 reply with an empty JSON object raises
    KeyError out of [update], and a 500 reply carrying a full payload
    replaces the cache. *)
Theorem C2_error_status_not_handled :
  (forall (soup : string -> list (list string)) (info body : gmap string jvalue),
      update soup info Unreachable = Updated info
      /\ update soup info (Reply 400 body) = Updated info)
  /\ update no_soup default_info (Reply 500 ∅) = Raised
  /\ (exists p, update no_soup default_info (Reply 500 (device_body "58.2v")) = Updated p
                /\ p !! "UPTIME" = Some (JStr "3600")
                /\ default_info !! "UPTIME" = Some (JStr "Offline")).
Proof.
  split; [intros soup info body; split; reflexivity|].
  split; [vm_compute; reflexivity|].
  exists (match sanitize_response no_soup (device_body "58.2v") with
          | Some p => p | None => ∅ end).
  split; [vm_compute; reflexivity | split; vm_compute; reflexivity].
Qed.

(** The default [self.info] without its tables: the six numeric fields
    hold plain numerals. *)
Definition clean_info : gmap string jvalue :=
  delete "CELL_VOLTAGE_TABLE" (delete "TEMPERATURE_TABLE" default_info).

(** The characters removed by some [strip] of [strip_units]. *)
Definition unit_chars : string := "v Amps%mAh".

Definition end_ok (l : list ascii) : bool :=
  match l with
  | [] => true
  | c :: _ => negb (in_chars unit_chars c)
  end.

(** Neither the first nor the last character is stripped by [strip_units]
    (plain numerals such as "58.2" or "-1" qualify). *)
Definition clean_ends (s : string) : bool :=
  end_ok (list_ascii_of_string s) && end_ok (rev (list_ascii_of_string s)).

(** The table field is absent or falsy, so its block is skipped. *)
Definition table_falsy (p : gmap string jvalue) (key : string) : bool :=
  match p !! key with
  | None => true
  | Some v => negb (py_truthy v)
  end.

(** A parser stub for markup holding one row with one cell. *)
Definition one_cell_row : string -> list (list string) := fun _ => [["3.91"]].

(** A device payload with a cell-voltage table. *)
Definition table_body : gmap string jvalue :=
  <[ "CELL_VOLTAGE_TABLE" := JStr "<tr><td>3.91</td></tr>" ]> (device_body "58.2v").

(** C5 (counterexample): sanitizing a device payload with a cell table
    gives a payload in sanitized form (plain numerals, the table a
    non-empty mapping); sanitizing that output again hands the mapping to
    BeautifulSoup, which raises. The default [self.info] of [OwieData],
    whose tables are mappings, fails the same way whatever the parser. *)
Lemma C5_counterexample :
  (exists p1 m,
      sanitize_response one_cell_row table_body = Some p1
      /\ p1 !! "TOTAL_VOLTAGE" = Some (JStr "58.2")
      /\ p1 !! "CELL_VOLTAGE_TABLE" = Some (JMap m) /\ m <> ∅
      /\ sanitize_response one_cell_row p1 = None)
  /\ (forall soup, sanitize_response soup default_info = None).
Proof.
  split.
  - exists (match sanitize_response one_cell_row table_body with
            | Some p => p | None => ∅ end),
      {[ "Cell 1" := "3.91" ]}.
    split; [vm_compute; reflexivity |].
    split; [vm_compute; reflexivity |].
    split; [vm_compute; reflexivity |].
    split; [apply insert_non_empty | vm_compute; reflexivity].
  - intros soup. vm_compute. reflexivity.
Qed.

Lemma numeric_from_none (props : list string) :
  foldl (fun acc prop => match acc with
                         | Some q => sanitize_prop q prop
                         | None => None
                         end) None props = None.
Proof. induction props; [reflexivity | exact IHprops]. Qed.

Lemma numeric_keeps (props : list string) (p p1 : gmap string jvalue) (k : string) :
  foldl (fun acc prop => match acc with
                         | Some q => sanitize_prop q prop
                         | None => None
                         end) (Some p) props = Some p1 ->
  k ∉ props -> p1 !! k = p !! k.
Proof.
  revert p. induction props as [|x xs IH]; intros p H Hk.
  { simpl in H. by injection H as <-. }
  apply not_elem_of_cons in Hk as [Hkx Hk].
  simpl in H. unfold sanitize_prop at 2 in H.
  destruct (p !! x) as [[sx| | |]|];
    try (by rewrite numeric_from_none in H).
  rewrite (IH _ H Hk). by apply lookup_insert_ne.
Qed.

Lemma table_keeps (soup : string -> list (list string)) (key : string) (keys : list string)
    (p p2 : gmap string jvalue) (k : string) :
  sanitize_table soup key keys p = Some p2 -> k <> key -> p2 !! k = p !! k.
Proof.
  intros H Hk. unfold sanitize_table in H.
  destruct (p !! key) as [v|]; [|by injection H as <-].
  destruct (py_truthy v); [|by injection H as <-].
  destruct v; try discriminate. injection H as <-.
  apply lookup_insert_ne. congruence.
Qed.

Lemma table_mapping_raises (soup : string -> list (list string)) (key : string)
    (keys : list string) (p : gmap string jvalue) (m : gmap string string) :
  p !! key = Some (JMap m) -> m <> ∅ -> sanitize_table soup key keys p = None.
Proof.
  intros Hp Hm. unfold sanitize_table. rewrite Hp. simpl.
  by rewrite bool_decide_eq_false_2.
Qed.

Lemma in_chars_sub (cs : string) (c : ascii) :
  (forall d, In d (list_ascii_of_string cs) -> In d (list_ascii_of_string unit_chars)) ->
  in_chars cs c = true -> in_chars unit_chars c = true.
Proof.
  intros Hsub H. unfold in_chars in *.
  apply existsb_exists in H as [d [Hd Hcd]].
  apply existsb_exists. exists d. split; [by apply Hsub | exact Hcd].
Qed.

Lemma lstrip_list_id (cs : string) (l : list ascii) :
  (forall d, In d (list_ascii_of_string cs) -> In d (list_ascii_of_string unit_chars)) ->
  end_ok l = true -> lstrip_list cs l = l.
Proof.
  intros Hsub H. destruct l as [|c rest]; [reflexivity|]. simpl in *.
  destruct (in_chars cs c) eqn:E; [|reflexivity].
  apply (in_chars_sub cs c Hsub) in E. rewrite E in H. discriminate H.
Qed.

Lemma py_strip_id (cs s : string) :
  (forall d, In d (list_ascii_of_string cs) -> In d (list_ascii_of_string unit_chars)) ->
  clean_ends s = true -> py_strip cs s = s.
Proof.
  intros Hsub H. unfold clean_ends in H. apply andb_true_iff in H as [H1 H2].
  unfold py_strip. rewrite (lstrip_list_id cs _ Hsub H1).
  rewrite (lstrip_list_id cs _ Hsub H2), rev_involutive.
  apply string_of_list_ascii_of_string.
Qed.

Lemma strip_units_id (s : string) : clean_ends s = true -> strip_units s = s.
Proof.
  intros H. unfold strip_units.
  assert (Ev : py_strip "v" s = s)
    by (apply py_strip_id; [intros d Hd; simpl in Hd; simpl; tauto | exact H]).
  assert (Ea : py_strip " Amps" s = s)
    by (apply py_strip_id; [intros d Hd; simpl in Hd; simpl; tauto | exact H]).
  assert (Ep : py_strip "%" s = s)
    by (apply py_strip_id; [intros d Hd; simpl in Hd; simpl; tauto | exact H]).
  assert (Em : py_strip " mAh" s = s)
    by (apply py_strip_id; [intros d Hd; simpl in Hd; simpl; tauto | exact H]).
  rewrite Ev, Ea, Ep, Ep, Em, Em. reflexivity.
Qed.

Lemma sanitize_props_id (props : list string) (p : gmap string jvalue) :
  Forall (fun prop => exists s, p !! prop = Some (JStr s) /\ clean_ends s = true) props ->
  foldl (fun acc prop => match acc with
                         | Some q => sanitize_prop q prop
                         | None => None
                         end) (Some p) props = Some p.
Proof.
  induction 1 as [|prop rest [s [Hs Hc]] _ IH]; [reflexivity|].
  simpl. unfold sanitize_prop at 2. rewrite Hs, (strip_units_id s Hc).
  rewrite (insert_id p prop (JStr s) Hs). exact IH.
Qed.

(** C5 (amended): sanitizing fails on every payload one of whose table
    fields holds a non-empty mapping, the form the sanitizer itself gives
    a table: the mapping is handed to BeautifulSoup, which raises.
    Sanitizing is a no-op, and does not fail, on a payload whose six
    numeric fields are strings that neither start nor end with one of the
    characters v, space, A, m, p, s, %, h (plain numerals qualify) and
    whose table fields are absent or empty. *)
Theorem C5_resanitize (soup : string -> list (list string)) (p : gmap string jvalue) :
  ((exists m, m <> ∅ /\ (p !! "CELL_VOLTAGE_TABLE" = Some (JMap m)
                         \/ p !! "TEMPERATURE_TABLE" = Some (JMap m))) ->
   sanitize_response soup p = None)
  /\ ((forall prop, prop ∈ san_properties ->
         exists s, p !! prop = Some (JStr s) /\ clean_ends s = true) ->
      table_falsy p "CELL_VOLTAGE_TABLE" = true ->
      table_falsy p "TEMPERATURE_TABLE" = true ->
      sanitize_response soup p = Some p).
Proof.
  split.
  - intros [m [Hm Hp]].
    assert (Hc : "CELL_VOLTAGE_TABLE" ∉ san_properties)
      by (intros Hin; unfold san_properties in Hin;
          repeat (apply elem_of_cons in Hin as [Hin | Hin]; [discriminate Hin|]);
          by apply elem_of_nil in Hin).
    assert (Ht : "TEMPERATURE_TABLE" ∉ san_properties)
      by (intros Hin; unfold san_properties in Hin;
          repeat (apply elem_of_cons in Hin as [Hin | Hin]; [discriminate Hin|]);
          by apply elem_of_nil in Hin).
    unfold sanitize_response, sanitize_numeric.
    destruct (foldl _ (Some p) san_properties) as [p1|] eqn:E1; [|reflexivity].
    destruct Hp as [Hp | Hp].
    + rewrite (table_mapping_raises soup _ cell_voltage_keys p1 m); [reflexivity | | exact Hm].
      by rewrite (numeric_keeps _ _ _ _ E1 Hc).
    + destruct (sanitize_table soup "CELL_VOLTAGE_TABLE" cell_voltage_keys p1) as [p2|] eqn:E2;
        [|reflexivity].
      apply (table_mapping_raises soup _ temperature_keys p2 m); [|exact Hm].
      rewrite (table_keeps _ _ _ _ _ _ E2) by discriminate.
      by rewrite (numeric_keeps _ _ _ _ E1 Ht).
  - intros Hprops Hcell Htemp. unfold sanitize_response, sanitize_numeric.
    rewrite sanitize_props_id by (by apply Forall_forall).
    unfold sanitize_table, table_falsy in *.
    destruct (p !! "CELL_VOLTAGE_TABLE") as [v|];
      [apply negb_true_iff in Hcell; rewrite Hcell|].
    all: destruct (p !! "TEMPERATURE_TABLE") as [w|];
      [apply negb_true_iff in Htemp; rewrite Htemp|]; reflexivity.
Qed.

Lemma C5_witness :
  ((exists m, m <> ∅ /\ (default_info !! "CELL_VOLTAGE_TABLE" = Some (JMap m)
                         \/ default_info !! "TEMPERATURE_TABLE" = Some (JMap m)))
   /\ sanitize_response no_soup default_info = None)
  /\ ((forall prop, prop ∈ san_properties ->
         exists s, clean_info !! prop = Some (JStr s) /\ clean_ends s = true)
      /\ table_falsy clean_info "CELL_VOLTAGE_TABLE" = true
      /\ table_falsy clean_info "TEMPERATURE_TABLE" = true
      /\ sanitize_response no_soup clean_info = Some clean_info).
Proof.
  assert (Hm : exists m, m <> ∅ /\ (default_info !! "CELL_VOLTAGE_TABLE" = Some (JMap m)
                         \/ default_info !! "TEMPERATURE_TABLE" = Some (JMap m))).
  { exists (list_to_map ((fun k => (k, "0")) <$> cell_voltage_keys)).
    split; [apply (bool_decide_unpack _); vm_compute; reflexivity |].
    left. vm_compute. reflexivity. }
  assert (Hp : forall prop, prop ∈ san_properties ->
     exists s, clean_info !! prop = Some (JStr s) /\ clean_ends s = true).
  { intros prop Hin. unfold san_properties in Hin.
    repeat (apply elem_of_cons in Hin as [-> | Hin];
            [eexists; split; [vm_compute; reflexivity | vm_compute; reflexivity] |]).
    by apply elem_of_nil in Hin. }
  split.
  - split; [exact Hm | exact (proj1 (C5_resanitize no_soup default_info) Hm)].
  - split; [exact Hp | split; [vm_compute; reflexivity | split; [vm_compute; reflexivity |]]].
    apply (proj2 (C5_resanitize no_soup clean_info) Hp); vm_compute; reflexivity.
Defined.

End Sanitizer.

(* ===================================================================== *)
(* Table mapping: proofs                                                  *)
(* ===================================================================== *)

Module Tables.

Definition insert_pair (m : gmap string string) (kv : string * string) : gmap string string :=
  <[fst kv := snd kv]> m.

Lemma zip_insert_notin (ks vs : list string) (m : gmap string string) (k : string) :
  k ∉ ks -> foldl insert_pair m (zip ks vs) !! k = m !! k.
Proof.
  revert vs m. induction ks as [|k0 ks IH]; intros vs m Hk; [reflexivity|].
  destruct vs as [|v0 vs]; [reflexivity|].
  apply not_elem_of_cons in Hk as [Hne Hk].
  simpl. rewrite IH by exact Hk. unfold insert_pair. simpl.
  apply lookup_insert_ne. congruence.
Qed.

Lemma zip_insert_lookup (ks vs : list string) (m : gmap string string) (j : nat) (k : string) :
  NoDup ks -> ks !! j = Some k ->
  foldl insert_pair m (zip ks vs) !! k
  = match vs !! j with Some v => Some v | None => m !! k end.
Proof.
  revert vs m j. induction ks as [|k0 ks IH]; intros vs m j Hnd Hj; [discriminate Hj|].
  apply NoDup_cons in Hnd as [Hk0 Hnd].
  destruct vs as [|v0 vs].
  { simpl. by destruct j. }
  simpl. destruct j as [|j].
  - simpl in Hj. injection Hj as <-.
    rewrite zip_insert_notin by exact Hk0. unfold insert_pair. simpl.
    apply lookup_insert_eq.
  - simpl in Hj. simpl. rewrite (IH vs _ j Hnd Hj).
    destruct (vs !! j); [reflexivity|].
    unfold insert_pair. simpl. apply lookup_insert_ne.
    intros ->. apply Hk0. by eapply list_elem_of_lookup_2.
Qed.

Lemma cell_voltage_keys_NoDup : NoDup cell_voltage_keys.
Proof. apply (bool_decide_unpack _). vm_compute. reflexivity. Qed.

Lemma cell_voltage_keys_lookup (i : nat) :
  (1 <= i <= 15)%nat -> cell_voltage_keys !! (i - 1)%nat = Some (cell_key i).
Proof.
  intros Hi. unfold cell_voltage_keys. rewrite list_lookup_fmap.
  rewrite lookup_seq_lt by lia. simpl. do 2 f_equal. lia.
Qed.

(** C9: for a cell-voltage table given as non-empty markup, the table step
    of the sanitizer never fails and stores a mapping in which, for
    i = 1..15, "Cell i" is bound to the i-th value of the first non-empty
    row when that row has at least i values and is absent otherwise, and
    no other key occurs: 15 values give Cell 1..Cell 15 in row order, fewer
    values leave the trailing keys out (no padding), surplus values are
    dropped. *)
Theorem C9_cell_table_mapping (soup : string -> list (list string))
    (p : gmap string jvalue) (s : string) :
  p !! "CELL_VOLTAGE_TABLE" = Some (JStr s) -> s <> "" ->
  exists m,
    sanitize_table soup "CELL_VOLTAGE_TABLE" cell_voltage_keys p
      = Some (<[ "CELL_VOLTAGE_TABLE" := JMap m ]> p)
    /\ (forall i, (1 <= i <= 15)%nat ->
          m !! cell_key i = first_row_values (soup s) !! (i - 1)%nat)
    /\ (forall k, k ∉ cell_voltage_keys -> m !! k = None).
Proof.
  intros Hp Hs. exists (dict_zip cell_voltage_keys (first_row_values (soup s))).
  split; [|split].
  - unfold sanitize_table. rewrite Hp. simpl.
    assert (E : str_eqb s "" = false) by (by apply Tracker.str_eqb_false).
    rewrite E. reflexivity.
  - intros i Hi. unfold dict_zip.
    change (fun m kv => <[fst kv := snd kv]> m) with insert_pair.
    rewrite (zip_insert_lookup _ _ _ (i - 1) _ cell_voltage_keys_NoDup
               (cell_voltage_keys_lookup i Hi)).
    by destruct (first_row_values (soup s) !! (i - 1)%nat).
  - intros k Hk. unfold dict_zip.
    change (fun m kv => <[fst kv := snd kv]> m) with insert_pair.
    rewrite zip_insert_notin by exact Hk. apply lookup_empty.
Qed.

(** Markup parsed into a single row of three cells. *)
Definition three_cells : string -> list (list string) :=
  fun _ => [[" 3.91 "; ""; "3.92"; "3.90"]].

Lemma C9_witness :
  exists m,
    sanitize_table three_cells "CELL_VOLTAGE_TABLE" cell_voltage_keys
      {[ "CELL_VOLTAGE_TABLE" := JStr "<tr><td>3.91</td></tr>" ]}
      = Some (<[ "CELL_VOLTAGE_TABLE" := JMap m ]>
                {[ "CELL_VOLTAGE_TABLE" := JStr "<tr><td>3.91</td></tr>" ]})
    /\ (forall i, (1 <= i <= 15)%nat ->
          m !! cell_key i = first_row_values (three_cells "<tr><td>3.91</td></tr>") !! (i - 1)%nat)
    /\ (forall k, k ∉ cell_voltage_keys -> m !! k = None).
Proof.
  apply (C9_cell_table_mapping three_cells
           {[ "CELL_VOLTAGE_TABLE" := JStr "<tr><td>3.91</td></tr>" ]}
           "<tr><td>3.91</td></tr>").
  - vm_compute. reflexivity.
  - discriminate.
Defined.

End Tables.

(* ===================================================================== *)
(* Further properties of the sensors                                      *)
(* ===================================================================== *)

Module SensorFacts.

(** Extra: a run of identical stalled readings u (u the stored uptime, not
    "Offline") starting with missed_count m is reported connected for the
    first max(0, max_missed - m) readings and disconnected afterwards;
    missed_count climbs to at most max_missed and then stays. *)
Theorem stall_run (mpm m : Z) (u : string) (n : nat) :
  u <> "Offline" ->
  run_connectivity mpm (mkTracker u m) (repeat u n)
  = (mkTracker u (m + Z.of_nat (Nat.min n (Z.to_nat (mpm - m)))),
     repeat true (Nat.min n (Z.to_nat (mpm - m)))
       ++ repeat false (n - Z.to_nat (mpm - m))).
Proof.
  intros Hu. revert m. induction n as [|n IH]; intros m.
  { simpl. f_equal. f_equal. lia. }
  simpl. unfold connectivity_is_on at 1. simpl.
  assert (E : str_eqb u "Offline" = false) by (by apply Tracker.str_eqb_false).
  assert (E' : str_eqb u u = true) by (by apply Tracker.str_eqb_true).
  rewrite E, E'. simpl.
  destruct (m <? mpm) eqn:Hlt.
  - apply Z.ltb_lt in Hlt. rewrite IH.
    assert (K : Z.to_nat (mpm - m) = S (Z.to_nat (mpm - (m + 1)))) by lia.
    rewrite K. simpl. f_equal. f_equal. lia.
  - apply Z.ltb_ge in Hlt.
    change (run_connectivity mpm (mkTracker u m) (repeat u n))
      with (run_connectivity mpm (mkTracker u m) (repeat u n)).
    rewrite IH.
    assert (K : Z.to_nat (mpm - m) = 0%nat) by lia.
    rewrite K. simpl. rewrite !Nat.min_0_r, !Nat.sub_0_r. simpl.
    reflexivity.
Qed.

Lemma stall_run_witness :
  "10" <> "Offline" /\
  run_connectivity 3 (mkTracker "10" 1) (repeat "10" 4)
  = (mkTracker "10" (1 + Z.of_nat (Nat.min 4 (Z.to_nat (3 - 1)))),
     repeat true (Nat.min 4 (Z.to_nat (3 - 1))) ++ repeat false (4 - Z.to_nat (3 - 1))).
Proof. split; [discriminate | apply stall_run; discriminate]. Defined.

(** Extra: fed the same uptime readings and max_missed, the charging
    sensor's own tracker stays in step with the connectivity sensor's,
    also across reads where [float(CURRENT_AMPS)] raises, and it never
    reports charging on a read where the connectivity sensor reports
    disconnected. *)
Theorem charging_follows_connectivity (mpm : Z) (st : charging)
    (reads : list (string * option Q)) :
  ch_tracker (fst (run_charging mpm st reads))
    = fst (run_connectivity mpm (ch_tracker st) (map fst reads))
  /\ Forall2 (fun r c => r = Some true -> c = true)
       (snd (run_charging mpm st reads))
       (snd (run_connectivity mpm (ch_tracker st) (map fst reads))).
Proof.
  revert st. induction reads as [|[u a] rest IH]; intros st.
  { split; [reflexivity | constructor]. }
  simpl.
  destruct (charging_is_on mpm st u a) as [st1 r] eqn:Hc.
  destruct (IH st1) as [Ht Hf].
  destruct (run_charging mpm st1 rest) as [st2 rs2] eqn:Hr.
  unfold charging_is_on in Hc.
  destruct (connectivity_is_on mpm (ch_tracker st) u) as [t c] eqn:Hs.
  assert (Hst : ch_tracker st1 = t /\ (r = Some true -> c = true)).
  { destruct c.
    - destruct a as [a|]; injection Hc as <- <-; split; auto.
    - injection Hc as <- <-. split; [reflexivity | discriminate]. }
  destruct Hst as [Ht1 Hrc]. rewrite Ht1 in Ht, Hf.
  destruct (run_connectivity mpm t (map fst rest)) as [t2 bs] eqn:Hrun.
  simpl in *. split; [exact Ht | constructor; [exact Hrc | exact Hf]].
Qed.

End SensorFacts.

Module BatteryFacts.

(** Reference for the values reported without a pending restore: each
    read reports the newest reading other than the -1 sentinel, or [acc]
    (initially 0) when there is none yet. *)
Fixpoint latest_live (acc : Z) (reads : list Z) : list Z :=
  match reads with
  | [] => []
  | o :: rest =>
      let acc' := if o =? -1 then acc else o in
      acc' :: latest_live acc' rest
  end.

Lemma run_battery_no_restore (s : Z) (reads : list Z) :
  s <> -1 ->
  snd (run_battery (mkBattery s None) reads) = latest_live s reads.
Proof.
  revert s. induction reads as [|o rest IH]; intros s Hs; [reflexivity|].
  simpl. unfold battery_state, battery_state_rest. simpl.
  assert (Es : (s =? -1) = false) by (apply Z.eqb_neq; exact Hs).
  rewrite Es. simpl.
  destruct (o =? -1) eqn:Eo; simpl.
  - destruct (run_battery (mkBattery s None) rest) as [b2 vs] eqn:Hr.
    simpl. f_equal. rewrite <- (IH s Hs), Hr. reflexivity.
  - apply Z.eqb_neq in Eo.
    destruct (run_battery (mkBattery o None) rest) as [b2 vs] eqn:Hr.
    simpl. f_equal. rewrite <- (IH o Eo), Hr. reflexivity.
Qed.

(** Extra: a battery sensor attached with no restored value reports, on
    every read, the most recent device reading other than the -1 sentinel,
    and 0 while there has been none. *)
Theorem battery_reports_latest_live (reads : list Z) :
  snd (run_battery (battery_attach battery_init None) reads) = latest_live 0 reads.
Proof.
  destruct reads as [|o rest]; [reflexivity|].
  simpl. unfold battery_state, battery_state_rest. simpl.
  destruct (o =? -1) eqn:Eo; simpl.
  - destruct (run_battery (mkBattery 0 None) rest) as [b2 vs] eqn:Hr.
    simpl. f_equal. rewrite <- (run_battery_no_restore 0 rest) by lia.
    rewrite Hr. reflexivity.
  - apply Z.eqb_neq in Eo.
    destruct (run_battery (mkBattery o None) rest) as [b2 vs] eqn:Hr.
    simpl. f_equal. rewrite <- (run_battery_no_restore o rest Eo), Hr. reflexivity.
Qed.

Lemma battery_state_no_restore (b : battery) (o : Z) :
  last_state b = None -> last_state (fst (battery_state b o)) = None.
Proof.
  intros H. unfold battery_state. rewrite H. unfold battery_state_rest.
  destruct (negb (bstate b =? -1) && (o =? -1)); [exact H|].
  by destruct (negb (o =? -1)).
Qed.

Lemma run_battery_no_restore_stays (b : battery) (reads : list Z) :
  last_state b = None -> last_state (fst (run_battery b reads)) = None.
Proof.
  revert b. induction reads as [|o rest IH]; intros b H; [exact H|].
  simpl. pose proof (battery_state_no_restore b o H) as H1.
  destruct (battery_state b o) as [b1 v]. simpl in H1.
  specialize (IH b1 H1). destruct (run_battery b1 rest) as [b2 vs]. exact IH.
Qed.

(** Extra: the restored value is used at most once. A holder with a
    pending restored value r and no value yet (state -1) reports r on its
    first read, whatever the device reports then, and drops r; after that
    no read sequence brings a pending restored value back. *)
Theorem restore_used_once (r o : Z) (rest : list Z) :
  battery_state (mkBattery (-1) (Some r)) o = (mkBattery r None, r)
  /\ last_state (fst (run_battery (mkBattery (-1) (Some r)) (o :: rest))) = None.
Proof.
  split; [reflexivity|].
  simpl. pose proof (run_battery_no_restore_stays (mkBattery r None) rest eq_refl) as H.
  destruct (run_battery (mkBattery r None) rest) as [b2 vs]. exact H.
Qed.

Lemma battery_state_stored (b : battery) (o : Z) :
  bstate (fst (battery_state b o)) = snd (battery_state b o).
Proof.
  destruct b as [s l]. unfold battery_state, battery_state_rest. simpl.
  destruct l; destruct (s =? -1); destruct (o =? -1); reflexivity.
Qed.

Lemma run_battery_state_nonneg (b : battery) (o : Z) (rest : list Z) :
  Battery.battery_ok b -> Forall (fun o => o = -1 \/ 0 <= o) (o :: rest) ->
  0 <= bstate (fst (run_battery b (o :: rest))).
Proof.
  revert b o. induction rest as [|o2 rest IH]; intros b o Hb Hr;
    inversion Hr as [|? ? Ho Hrest]; subst;
    pose proof (Battery.battery_state_ok b o Hb Ho) as [Hb1 Hv];
    pose proof (battery_state_stored b o) as Hst;
    simpl; destruct (battery_state b o) as [b1 v]; simpl in *.
  - lia.
  - specialize (IH b1 o2 Hb1 Hrest). simpl in IH.
    destruct (battery_state b1 o2) as [b2 v2].
    destruct (run_battery b2 rest) as [b3 vs]. simpl in *. exact IH.
Qed.

(** Extra: when every device reading is the -1 sentinel or non-negative
    and the restored value, if any, is non-negative, the battery icon
    ([charge_icon] of the stored state) is never "mdi:battery-unknown"
    after the first read. *)
Theorem battery_icon_known (restored : option Z) (o : Z) (rest : list Z) :
  (forall v, restored = Some v -> 0 <= v) ->
  Forall (fun o => o = -1 \/ 0 <= o) (o :: rest) ->
  charge_icon (bstate (fst (run_battery (battery_attach battery_init restored) (o :: rest))))
    <> "mdi:battery-unknown".
Proof.
  intros Hr Hreads.
  assert (Hok : Battery.battery_ok (battery_attach battery_init restored)).
  { destruct restored as [v|]; unfold Battery.battery_ok; simpl; split.
    - left. reflexivity.
    - intros l [= <-]. by apply Hr.
    - left. reflexivity.
    - intros l Hl. discriminate Hl. }
  pose proof (run_battery_state_nonneg _ o rest Hok Hreads) as H.
  remember (bstate (fst (run_battery (battery_attach battery_init restored) (o :: rest)))) as z.
  clear Heqz. unfold charge_icon.
  repeat match goal with
  | |- context [?a >=? ?c] =>
      destruct (a >=? c) eqn:?; [discriminate|]
  end.
  repeat match goal with
  | E : (_ >=? _) = false |- _ => rewrite Z.geb_leb in E; apply Z.leb_gt in E
  end.
  lia.
Qed.

Lemma battery_icon_known_witness :
  ((forall v, Some 42 = Some v -> 0 <= v)
   /\ Forall (fun o => o = -1 \/ 0 <= o) [-1; 67; -1])
  /\ charge_icon (bstate (fst (run_battery (battery_attach battery_init (Some 42)) [-1; 67; -1])))
       <> "mdi:battery-unknown".
Proof.
  assert (H1 : forall v, Some 42 = Some v -> 0 <= v) by (intros v [= <-]; lia).
  assert (H2 : Forall (fun o => o = -1 \/ 0 <= o) [-1; 67; -1]) by (repeat constructor; lia).
  split; [split; [exact H1 | exact H2] |].
  exact (battery_icon_known (Some 42) (-1) [67; -1] H1 H2).
Defined.

End BatteryFacts.

Module ClassifierFacts.

(** Case split on every [>=?] test of the [charge_icon] ladder. *)
Ltac soc_cases :=
  repeat match goal with
  | |- context [?a >=? ?c] =>
      let E := fresh "E" in
      destruct (a >=? c) eqn:E;
      [rewrite Z.geb_le in E | rewrite Z.geb_leb in E; apply Z.leb_gt in E]
  end.

(** Extra: [charge_icon] steps every 10 points: "mdi:battery" exactly for
    soc >= 95, "mdi:battery-90" for 90..94, "mdi:battery-k" for
    k <= soc < k + 10 (k = 10, ..., 80), "mdi:battery-outline" for 0..9 and
    "mdi:battery-unknown" exactly for negative soc. *)
Theorem charge_icon_bands (soc : Z) :
  (charge_icon soc = "mdi:battery" <-> 95 <= soc)
  /\ (charge_icon soc = "mdi:battery-90" <-> 90 <= soc < 95)
  /\ (charge_icon soc = "mdi:battery-80" <-> 80 <= soc < 90)
  /\ (charge_icon soc = "mdi:battery-70" <-> 70 <= soc < 80)
  /\ (charge_icon soc = "mdi:battery-60" <-> 60 <= soc < 70)
  /\ (charge_icon soc = "mdi:battery-50" <-> 50 <= soc < 60)
  /\ (charge_icon soc = "mdi:battery-40" <-> 40 <= soc < 50)
  /\ (charge_icon soc = "mdi:battery-30" <-> 30 <= soc < 40)
  /\ (charge_icon soc = "mdi:battery-20" <-> 20 <= soc < 30)
  /\ (charge_icon soc = "mdi:battery-10" <-> 10 <= soc < 20)
  /\ (charge_icon soc = "mdi:battery-outline" <-> 0 <= soc < 10)
  /\ (charge_icon soc = "mdi:battery-unknown" <-> soc < 0).
Proof.
  unfold charge_icon. soc_cases;
    repeat split; intros; first [reflexivity | discriminate | lia | exfalso; lia].
Qed.

(** The icon [charge_speed_icon] gives for each label of [charge_speed]. *)
Definition speed_icon_of_label (label : string) : string :=
  if str_eqb label "Not Charging" then "mdi:power-plug-off-outline"
  else if str_eqb label "Balance Charging" then "mdi:scale-balance"
  else if str_eqb label "Pint Charger" then "mdi:speedometer-slow"
  else if str_eqb label "XR|Pint Ultracharger" then "mdi:speedometer-medium"
  else if str_eqb label "XR Hypercharger" then "mdi:speedometer"
  else "mdi:flash-alert-outline".

(** Extra: the charging sensor's icon always matches its charge-speed
    label: [charge_speed_icon amps] is the icon of [charge_speed amps]. *)
Theorem charge_speed_icon_matches_label (amps : Q) :
  charge_speed_icon amps = speed_icon_of_label (charge_speed amps).
Proof.
  unfold charge_speed_icon, charge_speed.
  destruct (qge amps 0); [reflexivity|].
  destruct (qgt amps (-1)); [reflexivity|].
  destruct (qgt amps (-2)); [reflexivity|].
  destruct (qgt amps (-4)); [reflexivity|].
  destruct (qgt amps (-6)); reflexivity.
Qed.

(** Position of a label in the order of the ladder (0 = not charging). *)
Definition label_rank (label : string) : nat :=
  if str_eqb label "Not Charging" then 0
  else if str_eqb label "Balance Charging" then 1
  else if str_eqb label "Pint Charger" then 2
  else if str_eqb label "XR|Pint Ultracharger" then 3
  else if str_eqb label "XR Hypercharger" then 4
  else 5.

(** Extra: [charge_speed] is monotone: a more negative current never gets
    a lower charger band than a less negative one. *)
Theorem charge_speed_monotone (a b : Q) :
  (a <= b)%Q -> (label_rank (charge_speed b) <= label_rank (charge_speed a))%nat.
Proof.
  intros Hab. unfold charge_speed. Charging.ladder_cases;
    first [vm_compute; lia | exfalso; lra | simpl; lia].
Qed.

Lemma charge_speed_monotone_witness :
  ((-3) <= (-1/2))%Q /\
  (label_rank (charge_speed (-1/2)) <= label_rank (charge_speed (-3)))%nat.
Proof.
  split; [vm_compute; discriminate | apply charge_speed_monotone; vm_compute; discriminate].
Defined.

End ClassifierFacts.

Module StripFacts.

(** No character at the front of [l] is one [strip] removes. *)
Definition end_out (cs : string) (l : list ascii) : bool :=
  match l with
  | [] => true
  | c :: _ => negb (in_chars cs c)
  end.

Lemma list_ascii_of_string_app (s u : string) :
  list_ascii_of_string (s ++ u) = list_ascii_of_string s ++ list_ascii_of_string u.
Proof. induction s as [|c s IH]; simpl; [reflexivity | by rewrite IH]. Qed.

Lemma lstrip_out (cs : string) (l : list ascii) :
  end_out cs l = true -> lstrip_list cs l = l.
Proof.
  destruct l as [|c l]; simpl; [reflexivity|].
  intros H. apply negb_true_iff in H. by rewrite H.
Qed.

Lemma lstrip_app_in (cs : string) (u l : list ascii) :
  Forall (fun c => in_chars cs c = true) u ->
  lstrip_list cs (u ++ l) = lstrip_list cs l.
Proof. induction 1 as [|c u Hc _ IH]; simpl; [reflexivity|]. by rewrite Hc. Qed.

Lemma end_out_app (cs : string) (l1 l2 : list ascii) :
  l1 <> [] -> end_out cs (l1 ++ l2) = end_out cs l1.
Proof. by destruct l1. Qed.

(** [strip(cs)] removes a suffix made of characters of [cs] and stops at
    the kept text [s], whose two ends are outside [cs]. *)
Lemma py_strip_suffix (cs s u : string) :
  list_ascii_of_string s <> [] ->
  end_out cs (list_ascii_of_string s) = true ->
  end_out cs (rev (list_ascii_of_string s)) = true ->
  Forall (fun c => in_chars cs c = true) (list_ascii_of_string u) ->
  py_strip cs (s ++ u) = s.
Proof.
  intros Hne H1 H2 Hu. unfold py_strip.
  rewrite list_ascii_of_string_app.
  rewrite (lstrip_out cs (list_ascii_of_string s ++ list_ascii_of_string u))
    by (rewrite end_out_app; assumption).
  rewrite rev_app_distr, lstrip_app_in by (by apply Forall_rev).
  rewrite (lstrip_out cs (rev (list_ascii_of_string s))) by exact H2.
  rewrite rev_involutive. apply string_of_list_ascii_of_string.
Qed.

(** [strip(cs)] leaves [s ++ u] alone when its first and last characters
    are outside [cs]. *)
Lemma py_strip_keep (cs s u : string) :
  list_ascii_of_string s <> [] ->
  list_ascii_of_string u <> [] ->
  end_out cs (list_ascii_of_string s) = true ->
  end_out cs (rev (list_ascii_of_string u)) = true ->
  py_strip cs (s ++ u) = (s ++ u)%string.
Proof.
  intros Hs Hu H1 H2. unfold py_strip.
  rewrite list_ascii_of_string_app.
  rewrite (lstrip_out cs (list_ascii_of_string s ++ list_ascii_of_string u))
    by (rewrite end_out_app; assumption).
  rewrite lstrip_out.
  - rewrite rev_involutive, <- list_ascii_of_string_app.
    apply string_of_list_ascii_of_string.
  - rewrite rev_app_distr, end_out_app; [exact H2|].
    intros E. apply Hu. rewrite <- (rev_involutive (list_ascii_of_string u)), E. reflexivity.
Qed.

Lemma end_ok_out (cs : string) (l : list ascii) :
  (forall d, In d (list_ascii_of_string cs) ->
             In d (list_ascii_of_string Sanitizer.unit_chars)) ->
  Sanitizer.end_ok l = true -> end_out cs l = true.
Proof.
  intros Hsub H. destruct l as [|c l]; [reflexivity|]. simpl in *.
  destruct (in_chars cs c) eqn:E; [|reflexivity].
  apply (Sanitizer.in_chars_sub cs c Hsub) in E. by rewrite E in H.
Qed.

Ltac sub_units := intros d Hd; simpl in Hd; simpl; tauto.

(** Extra: the unit stripping of [sanitize_response] turns a value
    "<numeral><unit>" back into the numeral, for each of the units "v",
    " Amps", "%" and " mAh", when the numeral is non-empty and neither
    starts nor ends with a stripped character (e.g. "58.2v" -> "58.2",
    "-3.2 Amps" -> "-3.2", "87%" -> "87", "1234 mAh" -> "1234"). *)
Theorem strip_units_suffix (s u : string) :
  s <> "" -> Sanitizer.clean_ends s = true ->
  u ∈ ["v"; " Amps"; "%"; " mAh"] ->
  strip_units (s ++ u) = s.
Proof.
  intros Hne Hc Hu.
  assert (Hl : list_ascii_of_string s <> []) by (destruct s; [congruence | discriminate]).
  pose proof Hc as Hc'. unfold Sanitizer.clean_ends in Hc'.
  apply andb_true_iff in Hc' as [Hh Ht].
  assert (Id : forall cs, (forall d, In d (list_ascii_of_string cs) ->
                 In d (list_ascii_of_string Sanitizer.unit_chars)) -> py_strip cs s = s)
    by (intros cs Hsub; by apply Sanitizer.py_strip_id).
  assert (Hv : py_strip "v" s = s) by (apply Id; sub_units).
  assert (Ha : py_strip " Amps" s = s) by (apply Id; sub_units).
  assert (Hp : py_strip "%" s = s) by (apply Id; sub_units).
  assert (Hm : py_strip " mAh" s = s) by (apply Id; sub_units).
  assert (Out : forall cs, (forall d, In d (list_ascii_of_string cs) ->
                 In d (list_ascii_of_string Sanitizer.unit_chars)) ->
                 end_out cs (list_ascii_of_string s) = true
                 /\ end_out cs (rev (list_ascii_of_string s)) = true)
    by (intros cs Hsub; split; by apply end_ok_out).
  unfold strip_units.
  repeat (apply elem_of_cons in Hu as [-> | Hu]);
    [| | | | by apply elem_of_nil in Hu].
  - destruct (Out "v") as [O1 O2]; [sub_units|].
    rewrite (py_strip_suffix "v" s "v" Hl O1 O2) by (repeat constructor).
    by rewrite Ha, Hp, Hp, Hm, Hm.
  - destruct (Out "v") as [O1 O2]; [sub_units|].
    rewrite (py_strip_keep "v" s " Amps" Hl) by (done || exact O1).
    destruct (Out " Amps") as [A1 A2]; [sub_units|].
    rewrite (py_strip_suffix " Amps" s " Amps" Hl A1 A2) by (repeat constructor).
    by rewrite Hp, Hp, Hm, Hm.
  - destruct (Out "v") as [O1 O2]; [sub_units|].
    rewrite (py_strip_keep "v" s "%" Hl) by (done || exact O1).
    destruct (Out " Amps") as [A1 A2]; [sub_units|].
    rewrite (py_strip_keep " Amps" s "%" Hl) by (done || exact A1).
    destruct (Out "%") as [P1 P2]; [sub_units|].
    rewrite (py_strip_suffix "%" s "%" Hl P1 P2) by (repeat constructor).
    by rewrite Hp, Hm, Hm.
  - destruct (Out "v") as [O1 O2]; [sub_units|].
    rewrite (py_strip_keep "v" s " mAh" Hl) by (done || exact O1).
    destruct (Out " Amps") as [A1 A2]; [sub_units|].
    rewrite (py_strip_keep " Amps" s " mAh" Hl) by (done || exact A1).
    destruct (Out "%") as [P1 P2]; [sub_units|].
    rewrite !(py_strip_keep "%" s " mAh" Hl) by (done || exact P1).
    destruct (Out " mAh") as [M1 M2]; [sub_units|].
    rewrite (py_strip_suffix " mAh" s " mAh" Hl M1 M2) by (repeat constructor).
    exact Hm.
Qed.

Lemma strip_units_suffix_witness :
  ("-3.2" <> "" /\ Sanitizer.clean_ends "-3.2" = true /\ " Amps" ∈ ["v"; " Amps"; "%"; " mAh"])
  /\ strip_units ("-3.2" ++ " Amps") = "-3.2".
Proof.
  assert (H1 : "-3.2" <> "") by discriminate.
  assert (H2 : Sanitizer.clean_ends "-3.2" = true) by reflexivity.
  assert (H3 : " Amps" ∈ ["v"; " Amps"; "%"; " mAh"]) by (right; left).
  split; [split; [exact H1 | split; [exact H2 | exact H3]] |].
  exact (strip_units_suffix "-3.2" " Amps" H1 H2 H3).
Defined.

End StripFacts.

Module SanitizeFacts.

Definition numeric_step (acc : option (gmap string jvalue)) (prop : string)
    : option (gmap string jvalue) :=
  match acc with
  | Some q => sanitize_prop q prop
  | None => None
  end.

Lemma numeric_fold_none (props : list string) :
  foldl numeric_step None props = None.
Proof. induction props; [reflexivity | exact IHprops]. Qed.

Lemma numeric_fold_fails (props : list string) (p : gmap string jvalue) (prop : string) :
  prop ∈ props -> (forall s, p !! prop <> Some (JStr s)) ->
  foldl numeric_step (Some p) props = None.
Proof.
  revert p. induction props as [|x xs IH]; intros p Hin Hp;
    [by apply elem_of_nil in Hin|].
  cbn [foldl]. change (numeric_step (Some p) x) with (sanitize_prop p x).
  unfold sanitize_prop.
  destruct (decide (prop = x)) as [<-|Hne].
  - destruct (p !! prop) as [[s| | |]|] eqn:E;
      try (apply numeric_fold_none). exfalso. by apply (Hp s).
  - apply elem_of_cons in Hin as [-> | Hin]; [congruence|].
    destruct (p !! x) as [[s| | |]|]; try apply numeric_fold_none.
    apply IH; [exact Hin|]. intros s' E. apply (Hp s').
    by rewrite lookup_insert_ne in E by congruence.
Qed.

(** Extra: if any of the six numeric fields is missing from the payload
    or is not a string, [sanitize_response] fails (KeyError or
    AttributeError), and [OwieData.update] lets that exception out for
    every status other than 400. *)
Theorem sanitize_requires_numeric_strings (soup : string -> list (list string))
    (p info : gmap string jvalue) (prop : string) (code : Z) :
  prop ∈ san_properties -> (forall s, p !! prop <> Some (JStr s)) ->
  sanitize_response soup p = None
  /\ (code <> 400 -> update soup info (Reply code p) = Raised).
Proof.
  intros Hin Hp.
  assert (E : sanitize_response soup p = None).
  { unfold sanitize_response, sanitize_numeric.
    change (fun acc prop => match acc with
                            | Some q => sanitize_prop q prop
                            | None => None
                            end) with numeric_step.
    by rewrite (numeric_fold_fails san_properties p prop Hin Hp). }
  split; [exact E|]. intros Hc. unfold update.
  assert (C : (code =? 400) = false) by (apply Z.eqb_neq; exact Hc).
  by rewrite C, E.
Qed.

Lemma sanitize_requires_numeric_strings_witness :
  ("BMS_SOC" ∈ san_properties
   /\ (forall s, (delete "BMS_SOC" (Sanitizer.device_body "58.2v")) !! "BMS_SOC" <> Some (JStr s)))
  /\ (sanitize_response Sanitizer.no_soup (delete "BMS_SOC" (Sanitizer.device_body "58.2v")) = None
      /\ (500 <> 400 ->
          update Sanitizer.no_soup Sanitizer.default_info
            (Reply 500 (delete "BMS_SOC" (Sanitizer.device_body "58.2v"))) = Raised)).
Proof.
  assert (H1 : "BMS_SOC" ∈ san_properties) by (right; right; left).
  assert (H2 : forall s, (delete "BMS_SOC" (Sanitizer.device_body "58.2v")) !! "BMS_SOC"
                         <> Some (JStr s))
    by (intros s; vm_compute; discriminate).
  split; [split; [exact H1 | exact H2] |].
  exact (sanitize_requires_numeric_strings Sanitizer.no_soup _ Sanitizer.default_info
           "BMS_SOC" 500 H1 H2).
Defined.

Lemma numeric_fold_frame (props : list string) (p p' : gmap string jvalue) (k : string) :
  foldl numeric_step (Some p) props = Some p' -> k ∉ props -> p' !! k = p !! k.
Proof.
  revert p. induction props as [|x xs IH]; intros p H Hk.
  { simpl in H. by injection H as <-. }
  apply not_elem_of_cons in Hk as [Hkx Hk].
  cbn [foldl] in H. change (numeric_step (Some p) x) with (sanitize_prop p x) in H.
  unfold sanitize_prop in H.
  destruct (p !! x) as [[sx| | |]|]; try (by rewrite numeric_fold_none in H).
  rewrite (IH _ H Hk). by apply lookup_insert_ne.
Qed.

Lemma numeric_fold_values (props : list string) (p p' : gmap string jvalue) (prop : string) :
  NoDup props -> foldl numeric_step (Some p) props = Some p' -> prop ∈ props ->
  exists s, p !! prop = Some (JStr s) /\ p' !! prop = Some (JStr (strip_units s)).
Proof.
  revert p. induction props as [|x xs IH]; intros p Hnd H Hin;
    [by apply elem_of_nil in Hin|].
  apply NoDup_cons in Hnd as [Hx Hnd].
  cbn [foldl] in H. change (numeric_step (Some p) x) with (sanitize_prop p x) in H.
  unfold sanitize_prop in H.
  destruct (p !! x) as [[sx| | |]|] eqn:Ex; try (by rewrite numeric_fold_none in H).
  apply elem_of_cons in Hin as [-> | Hin].
  - exists sx. split; [exact Ex|].
    rewrite (numeric_fold_frame _ _ _ _ H Hx). apply lookup_insert_eq.
  - destruct (IH _ Hnd H Hin) as [s' [Hs' Hp']].
    exists s'. split; [|exact Hp'].
    rewrite lookup_insert_ne in Hs'; [exact Hs'|].
    intros ->. contradiction.
Qed.

Lemma sanitize_table_frame (soup : string -> list (list string)) (key : string)
    (keys : list string) (p p' : gmap string jvalue) (k : string) :
  sanitize_table soup key keys p = Some p' -> k <> key -> p' !! k = p !! k.
Proof.
  intros H Hk. unfold sanitize_table in H.
  destruct (p !! key) as [v|]; [|by injection H as <-].
  destruct (py_truthy v); [|by injection H as <-].
  destruct v; try discriminate. injection H as <-.
  apply lookup_insert_ne. congruence.
Qed.

(** Extra: a successful [sanitize_response] changes nothing but the six
    numeric fields and the two table fields (UPTIME and any other field
    pass through as they are), and each numeric field holds the unit
    stripping of the string it had. *)
Theorem sanitize_frame (soup : string -> list (list string)) (p p' : gmap string jvalue) :
  sanitize_response soup p = Some p' ->
  (forall k, k ∉ san_properties -> k <> "CELL_VOLTAGE_TABLE" ->
     k <> "TEMPERATURE_TABLE" -> p' !! k = p !! k)
  /\ (forall prop, prop ∈ san_properties ->
        exists s, p !! prop = Some (JStr s) /\ p' !! prop = Some (JStr (strip_units s))).
Proof.
  intros H. unfold sanitize_response, sanitize_numeric in H.
  change (fun acc prop => match acc with
                          | Some q => sanitize_prop q prop
                          | None => None
                          end) with numeric_step in H.
  destruct (foldl numeric_step (Some p) san_properties) as [p1|] eqn:E1; [|discriminate].
  destruct (sanitize_table soup "CELL_VOLTAGE_TABLE" cell_voltage_keys p1) as [p2|] eqn:E2;
    [|discriminate].
  assert (Hnd : NoDup san_properties) by (apply (bool_decide_unpack _); vm_compute; reflexivity).
  split.
  - intros k Hk Hc Ht.
    rewrite (sanitize_table_frame _ _ _ _ _ k H Ht), (sanitize_table_frame _ _ _ _ _ k E2 Hc).
    exact (numeric_fold_frame _ _ _ _ E1 Hk).
  - intros prop Hin.
    destruct (numeric_fold_values _ _ _ prop Hnd E1 Hin) as [s [Hs Hs']].
    exists s. split; [exact Hs|].
    assert (Hc : prop <> "CELL_VOLTAGE_TABLE")
      by (intros ->; unfold san_properties in Hin; vm_compute in Hin;
          repeat (apply elem_of_cons in Hin as [Hin | Hin]; [discriminate Hin|]);
          by apply elem_of_nil in Hin).
    assert (Ht : prop <> "TEMPERATURE_TABLE")
      by (intros ->; unfold san_properties in Hin; vm_compute in Hin;
          repeat (apply elem_of_cons in Hin as [Hin | Hin]; [discriminate Hin|]);
          by apply elem_of_nil in Hin).
    rewrite (sanitize_table_frame _ _ _ _ _ prop H Ht), (sanitize_table_frame _ _ _ _ _ prop E2 Hc).
    exact Hs'.
Qed.

Lemma sanitize_frame_witness :
  exists p',
    sanitize_response Sanitizer.no_soup (Sanitizer.device_body "58.2v") = Some p'
    /\ ((forall k, k ∉ san_properties -> k <> "CELL_VOLTAGE_TABLE" ->
           k <> "TEMPERATURE_TABLE" -> p' !! k = Sanitizer.device_body "58.2v" !! k)
        /\ (forall prop, prop ∈ san_properties ->
              exists s, Sanitizer.device_body "58.2v" !! prop = Some (JStr s)
                        /\ p' !! prop = Some (JStr (strip_units s)))).
Proof.
  exists (match sanitize_response Sanitizer.no_soup (Sanitizer.device_body "58.2v") with
          | Some q => q | None => ∅ end).
  assert (E : sanitize_response Sanitizer.no_soup (Sanitizer.device_body "58.2v")
              = Some (match sanitize_response Sanitizer.no_soup (Sanitizer.device_body "58.2v") with
                      | Some q => q | None => ∅ end)) by (vm_compute; reflexivity).
  split; [exact E | exact (sanitize_frame _ _ _ E)].
Defined.

End SanitizeFacts.

Module TableFacts.




Lemma table_keys_not_numeric :
  ("CELL_VOLTAGE_TABLE" ∉ san_properties) /\ ("TEMPERATURE_TABLE" ∉ san_properties).
Proof.
  split; intros Hin; unfold san_properties in Hin;
    repeat (apply elem_of_cons in Hin as [Hin | Hin]; [discriminate Hin|]);
    by apply elem_of_nil in Hin.
Qed.



Lemma temperature_keys_NoDup : NoDup temperature_keys.
Proof. apply (bool_decide_unpack _). vm_compute. reflexivity. Qed.

Lemma temperature_keys_lookup (i : nat) :
  (1 <= i <= 5)%nat -> temperature_keys !! (i - 1)%nat = Some (temp_key i).
Proof.
  intros Hi. unfold temperature_keys. rewrite list_lookup_fmap.
  rewrite lookup_seq_lt by lia. simpl. do 2 f_equal. lia.
Qed.

(** Extra: when [sanitize_response] succeeds on a payload whose
    TEMPERATURE_TABLE is non-empty markup, the result holds under that key
    a mapping in which, for i = 1..5, "Temp i" is bound to the i-th value
    of the first row with a non-empty cell when the row has one, and is
    absent otherwise; no other key occurs. *)
Theorem temperature_table_mapping (soup : string -> list (list string))
    (p p' : gmap string jvalue) (s : string) :
  sanitize_response soup p = Some p' ->
  p !! "TEMPERATURE_TABLE" = Some (JStr s) -> s <> "" ->
  exists m,
    p' !! "TEMPERATURE_TABLE" = Some (JMap m)
    /\ (forall i, (1 <= i <= 5)%nat ->
          m !! temp_key i = first_row_values (soup s) !! (i - 1)%nat)
    /\ (forall k, k ∉ temperature_keys -> m !! k = None).
Proof.
  intros H Hp Hs. destruct table_keys_not_numeric as [_ Ht].
  unfold sanitize_response, sanitize_numeric in H.
  change (fun acc prop => match acc with
                          | Some q => sanitize_prop q prop
                          | None => None
                          end) with SanitizeFacts.numeric_step in H.
  destruct (foldl SanitizeFacts.numeric_step (Some p) san_properties) as [p1|] eqn:E1;
    [|discriminate].
  destruct (sanitize_table soup "CELL_VOLTAGE_TABLE" cell_voltage_keys p1) as [p2|] eqn:E2;
    [|discriminate].
  assert (Hp2 : p2 !! "TEMPERATURE_TABLE" = Some (JStr s)).
  { rewrite (SanitizeFacts.sanitize_table_frame _ _ _ _ _ "TEMPERATURE_TABLE" E2) by discriminate.
    by rewrite (SanitizeFacts.numeric_fold_frame _ _ _ _ E1 Ht). }
  unfold sanitize_table in H. rewrite Hp2 in H. simpl in H.
  assert (E : str_eqb s "" = false) by (by apply Tracker.str_eqb_false).
  rewrite E in H. simpl in H. injection H as <-.
  exists (dict_zip temperature_keys (first_row_values (soup s))).
  split; [|split].
  - apply lookup_insert_eq.
  - intros i Hi. unfold dict_zip.
    change (fun m kv => <[fst kv := snd kv]> m) with Tables.insert_pair.
    rewrite (Tables.zip_insert_lookup _ _ _ (i - 1) _ temperature_keys_NoDup
               (temperature_keys_lookup i Hi)).
    by destruct (first_row_values (soup s) !! (i - 1)%nat).
  - intros k Hk. unfold dict_zip.
    change (fun m kv => <[fst kv := snd kv]> m) with Tables.insert_pair.
    rewrite Tables.zip_insert_notin by exact Hk. apply lookup_empty.
Qed.

(** A payload with plain numerals and a two-row temperature table. *)
Definition temp_body : gmap string jvalue :=
  <[ "TEMPERATURE_TABLE" := JStr "<tr><td>21</td><td>22</td></tr>" ]>
    (Sanitizer.device_body "58.2v").

Definition two_rows : string -> list (list string) :=
  fun _ => [[" "; ""]; ["21 "; " 22"]; ["23"]].

Lemma temperature_table_mapping_witness :
  exists p',
    sanitize_response two_rows temp_body = Some p'
    /\ exists m,
         p' !! "TEMPERATURE_TABLE" = Some (JMap m)
         /\ (forall i, (1 <= i <= 5)%nat ->
               m !! temp_key i = first_row_values (two_rows "<tr><td>21</td><td>22</td></tr>")
                                   !! (i - 1)%nat)
         /\ (forall k, k ∉ temperature_keys -> m !! k = None).
Proof.
  exists (match sanitize_response two_rows temp_body with Some q => q | None => ∅ end).
  assert (E : sanitize_response two_rows temp_body
              = Some (match sanitize_response two_rows temp_body with
                      | Some q => q | None => ∅ end)) by (vm_compute; reflexivity).
  split; [exact E|].
  apply (temperature_table_mapping two_rows temp_body _ "<tr><td>21</td><td>22</td></tr>" E).
  - vm_compute. reflexivity.
  - discriminate.
Defined.





End TableFacts.

Module PollFacts.

(** The polling loop: [async_update] runs [self.data.update] once per
    scan; an exception leaving [update] ends that scan and [self.info]
    keeps its value, since the assignment to it was not reached. *)
Definition poll (soup : string -> list (list string)) (info : gmap string jvalue)
    (os : list fetch_outcome) : gmap string jvalue :=
  fold_left (fun i o => match update soup i o with
                        | Updated i' => i'
                        | Raised => i
                        end) os info.

Definition numeric_strings (info : gmap string jvalue) : Prop :=
  forall prop, prop ∈ san_properties -> exists s, info !! prop = Some (JStr s).

Lemma sanitize_numeric_out (soup : string -> list (list string)) (p p' : gmap string jvalue) :
  sanitize_response soup p = Some p' -> numeric_strings p'.
Proof.
  intros H prop Hin. destruct TableFacts.table_keys_not_numeric as [Hc Ht].
  assert (Hnd : NoDup san_properties) by (apply (bool_decide_unpack _); vm_compute; reflexivity).
  unfold sanitize_response, sanitize_numeric in H.
  change (fun acc prop => match acc with
                          | Some q => sanitize_prop q prop
                          | None => None
                          end) with SanitizeFacts.numeric_step in H.
  destruct (foldl SanitizeFacts.numeric_step (Some p) san_properties) as [p1|] eqn:E1;
    [|discriminate].
  destruct (sanitize_table soup "CELL_VOLTAGE_TABLE" cell_voltage_keys p1) as [p2|] eqn:E2;
    [|discriminate].
  destruct (SanitizeFacts.numeric_fold_values _ _ _ prop Hnd E1 Hin) as [s [_ Hs]].
  exists (strip_units s).
  rewrite (SanitizeFacts.sanitize_table_frame _ _ _ _ _ prop H)
    by (intros ->; contradiction).
  rewrite (SanitizeFacts.sanitize_table_frame _ _ _ _ _ prop E2)
    by (intros ->; contradiction).
  exact Hs.
Qed.

Lemma poll_numeric_strings (soup : string -> list (list string)) (info : gmap string jvalue)
    (os : list fetch_outcome) :
  numeric_strings info -> numeric_strings (poll soup info os).
Proof.
  unfold poll. revert info. induction os as [|o os IH]; intros info Hi; [exact Hi|].
  simpl. apply IH.
  destruct (update soup info o) as [i'|] eqn:E; [|exact Hi].
  unfold update in E. destruct o as [|code body]; [by injection E as <-|].
  destruct (code =? 400); [by injection E as <-|].
  destruct (sanitize_response soup body) as [p|] eqn:Es; [|discriminate].
  injection E as <-. exact (sanitize_numeric_out soup body p Es).
Qed.

Lemma default_numeric_strings : numeric_strings Sanitizer.default_info.
Proof.
  intros prop Hin. unfold san_properties in Hin.
  repeat (apply elem_of_cons in Hin as [-> | Hin]; [eexists; vm_compute; reflexivity|]).
  by apply elem_of_nil in Hin.
Qed.

(** Extra: starting from the defaults of [OwieData.__init__], whatever the
    device answers on each poll (unreachable, a 400, a reply that makes
    [update] raise, or a payload), each of the six numeric fields of
    [self.info] is always present and a string, so the sensors' reads of
    them never raise KeyError. *)
Theorem poll_numeric_fields (soup : string -> list (list string))
    (os : list fetch_outcome) (prop : string) :
  prop ∈ san_properties ->
  exists s, poll soup Sanitizer.default_info os !! prop = Some (JStr s).
Proof.
  intros Hin. exact (poll_numeric_strings soup _ os default_numeric_strings prop Hin).
Qed.

Lemma poll_numeric_fields_witness :
  "OVERRIDDEN_SOC" ∈ san_properties
  /\ exists s, poll Sanitizer.no_soup Sanitizer.default_info
                 [Reply 500 ∅; Unreachable; Reply 200 (Sanitizer.device_body "58.2v");
                  Reply 400 ∅] !! "OVERRIDDEN_SOC" = Some (JStr s).
Proof.
  assert (H : "OVERRIDDEN_SOC" ∈ san_properties) by (right; right; right; left).
  split; [exact H|]. exact (poll_numeric_fields _ _ _ H).
Defined.

End PollFacts.
